(** * check_web.py: the nginx health-check Lambda and its notifications

    A shallow embedding of [task-3/src/check_web.py].  The module is glue
    code around three external services (the probed web server, AWS Secrets
    Manager and a Slack / Telegram endpoint), so the embedding is a small
    monad of computations that
      - may raise a Python exception,
      - read the history of the events observed so far (the answers of the
        outside world may depend on it), and
      - emit the events they cause: printed lines, clock reads, HTTP
        requests, Secrets Manager requests, and the calls and returns of the
        module's own functions.
    Properties of an invocation are then stated on its result and on the
    list of events it emitted.

    What the module takes from its libraries is kept abstract: the parser
    of [json.loads], UTF-8 decoding, the formatting of dates and of values
    in f-strings are fields of [PyLib], and [json.dumps] is a constructor.
    [print] is taken not to fail, and [str.lower] acts on the ASCII
    letters. *)

From Stdlib Require Import ZArith Ascii String.
From stdpp Require Import gmap strings list pretty.

Set Warnings "-register-all".
Open Scope Z_scope.

(** ** Python values *)

Inductive pyfloat :=
| FNan
| FInf (negative : bool)
| FFinite (mantissa exponent : Z).

(** The values [json.loads] can produce, which are also the values this
    module builds for [json.dumps] and for form fields. *)
Inductive pyval :=
| PNone
| PBool (b : bool)
| PInt (z : Z)
| PFloat (f : pyfloat)
| PStr (s : string)
| PList (l : list pyval)
| PDict (d : gmap string pyval).

(** Truth value testing, as in [if not x]. *)
Definition truthy (v : pyval) : bool :=
  match v with
  | PNone => false
  | PBool b => b
  | PInt z => negb (z =? 0)
  | PFloat FNan => true
  | PFloat (FInf _) => true
  | PFloat (FFinite m _) => negb (m =? 0)
  | PStr s => negb (String.eqb s "")
  | PList l => match l with [] => false | _ => true end
  | PDict d => negb (bool_decide (d = ∅))
  end.

(** [type(v).__name__] *)
Definition type_name (v : pyval) : string :=
  match v with
  | PNone => "NoneType"
  | PBool _ => "bool"
  | PInt _ => "int"
  | PFloat _ => "float"
  | PStr _ => "str"
  | PList _ => "list"
  | PDict _ => "dict"
  end.

(** The text [json.dumps v]; serialisation is kept symbolic. *)
Inductive json_text :=
| json_dumps (v : pyval).

(** ** Exceptions

    Only subclasses of [Exception] are modelled: they are what
    [except Exception] catches.  [LibraryError] stands for the exceptions
    of urllib3, botocore and json (MaxRetryError, ClientError,
    JSONDecodeError, ...), with the class name and the message. *)
Inductive exn :=
| ValueError (msg : string)
| KeyError (key : string)
| AttributeError (msg : string)
| LibraryError (cls msg : string).

(** [str(e)] *)
Definition str_exn (e : exn) : string :=
  match e with
  | ValueError msg => msg
  | KeyError key => "'" +:+ key +:+ "'"
  | AttributeError msg => msg
  | LibraryError _ msg => msg
  end.

Inductive result (A : Type) :=
| Ok (a : A)
| Raise (e : exn).
Arguments Ok {A} a.
Arguments Raise {A} e.

(** ** Strings *)

Definition ascii_lower (c : ascii) : ascii :=
  let n := nat_of_ascii c in
  if ((65 <=? n) && (n <=? 90))%nat then ascii_of_nat (n + 32) else c.

(** [s.lower()] on the ASCII range; other bytes are kept. *)
Fixpoint str_lower (s : string) : string :=
  match s with
  | EmptyString => EmptyString
  | String c s' => String (ascii_lower c) (str_lower s')
  end.

(** [needle in hay] *)
Fixpoint contains (needle hay : string) : bool :=
  String.prefix needle hay ||
  match hay with
  | EmptyString => false
  | String _ hay' => contains needle hay'
  end.

Definition newline : string := String (ascii_of_nat 10) EmptyString.

(** ** The outside world *)

Record datetime := {
  year : Z; month : Z; day : Z;
  hour : Z; minute : Z; second : Z; microsecond : Z
}.

(** [urllib3.Retry(total=..., backoff_factor=...)] *)
Record Retry := { total : Z; backoff_factor : Z }.

(** The arguments of one [http.request(...)]. *)
Record request := {
  req_method : string;
  req_url : pyval;
  req_body : option json_text;
  req_headers : list (string * string);
  req_fields : option pyval;
  req_timeout : option Z;
  req_retries : option Retry
}.

Record response := {
  resp_status : Z;
  resp_data : list Byte.byte
}.

(** The answer of [secrets_client.get_secret_value]; [SecretString] is
    absent for a binary secret. *)
Record secret_response := {
  SecretString : option string
}.

(** What an invocation does that can be observed.  [ECall], [EReturn] and
    [ERaise] record the calls of the module's own functions and how they
    ended. *)
Inductive event :=
| EPrint (line : string)
| EUtcnow (t : datetime)
| EHttpRequest (req : request) (out : exn + response)
| EGetSecretValue (SecretId : string) (out : exn + secret_response)
| ECall (fn : string) (args : list pyval)
| EReturn (fn : string) (v : pyval)
| ERaise (fn : string) (e : exn).

Definition history := list event.

(** Pure functions of the interpreter and its libraries. *)
Record PyLib := {
  json_loads : string -> exn + pyval;
  decode_utf8_ignore : list Byte.byte -> string;
  isoformat : datetime -> string;
  strftime : datetime -> string -> string;
  format_value : pyval -> string
}.

(** The process environment and the services the module talks to.  An
    answer may depend on everything that happened before the request. *)
Record World := {
  environ : gmap string string;
  utcnow_at : history -> datetime;
  http_request_at : history -> request -> exn + response;
  get_secret_value_at : history -> string -> exn + secret_response
}.

(** The dict returned by [handler]. *)
Record lambda_response := {
  statusCode : Z;
  body : json_text
}.

(** ** Observations on a list of events *)

(** The argument lists of the calls of [fn], in order. *)
Fixpoint calls (fn : string) (evs : list event) : list (list pyval) :=
  match evs with
  | [] => []
  | ECall f args :: evs' =>
      if String.eqb f fn then args :: calls fn evs' else calls fn evs'
  | _ :: evs' => calls fn evs'
  end.

(** The values returned by the calls of [fn], in order. *)
Fixpoint returns (fn : string) (evs : list event) : list pyval :=
  match evs with
  | [] => []
  | EReturn f v :: evs' =>
      if String.eqb f fn then v :: returns fn evs' else returns fn evs'
  | _ :: evs' => returns fn evs'
  end.

(** The exceptions that left a call of [fn], in order. *)
Fixpoint raises (fn : string) (evs : list event) : list exn :=
  match evs with
  | [] => []
  | ERaise f e :: evs' =>
      if String.eqb f fn then e :: raises fn evs' else raises fn evs'
  | _ :: evs' => raises fn evs'
  end.

(** The HTTP requests with method [method], each with its outcome. *)
Fixpoint http_requests (method : string) (evs : list event)
  : list (request * (exn + response)) :=
  match evs with
  | [] => []
  | EHttpRequest req out :: evs' =>
      if String.eqb (req_method req) method
      then (req, out) :: http_requests method evs'
      else http_requests method evs'
  | _ :: evs' => http_requests method evs'
  end.

(** The Secrets Manager requests, each with its outcome. *)
Fixpoint secret_requests (evs : list event)
  : list (string * (exn + secret_response)) :=
  match evs with
  | [] => []
  | EGetSecretValue name out :: evs' => (name, out) :: secret_requests evs'
  | _ :: evs' => secret_requests evs'
  end.

(** The lines printed, in order. *)
Fixpoint prints (evs : list event) : list string :=
  match evs with
  | [] => []
  | EPrint line :: evs' => line :: prints evs'
  | _ :: evs' => prints evs'
  end.

(** The requests that leave the process, in order: the method of an HTTP
    request, "get_secret_value" for a request to Secrets Manager. *)
Fixpoint request_kinds (evs : list event) : list string :=
  match evs with
  | [] => []
  | EHttpRequest req _ :: evs' => req_method req :: request_kinds evs'
  | EGetSecretValue _ _ :: evs' => "get_secret_value" :: request_kinds evs'
  | _ :: evs' => request_kinds evs'
  end.

(** An outcome of [http.request] that the notifiers count as delivered. *)
Definition answered_200 (out : exn + response) : Prop :=
  exists resp, out = inr resp /\ resp_status resp = 200.

(** No call of [fn] starts or ends in [evs]. *)
Definition silent (fn : string) (evs : list event) : Prop :=
  calls fn evs = [] /\ returns fn evs = [] /\ raises fn evs = [].

(** ** The monad *)

Definition M (A : Type) : Type := history -> result A * list event.

Definition ret {A} (a : A) : M A := fun _ => (Ok a, []).

Definition bind {A B} (m : M A) (k : A -> M B) : M B :=
  fun h =>
    match m h with
    | (Ok a, evs1) => let '(r, evs2) := k a (h ++ evs1) in (r, evs1 ++ evs2)
    | (Raise e, evs1) => (Raise e, evs1)
    end.

Definition raise {A} (e : exn) : M A := fun _ => (Raise e, []).

(** [try: m  except Exception as e: handle e] *)
Definition try_except {A} (m : M A) (handle : exn -> M A) : M A :=
  fun h =>
    match m h with
    | (Ok a, evs1) => (Ok a, evs1)
    | (Raise e, evs1) =>
        let '(r, evs2) := handle e (h ++ evs1) in (r, evs1 ++ evs2)
    end.

Definition print (line : string) : M unit := fun _ => (Ok tt, [EPrint line]).

(** [def fn(args): body], recording the call and how it ends. *)
Definition def {A} (fn : string) (args : list pyval) (to_py : A -> pyval)
    (body : M A) : M A :=
  fun h =>
    let '(r, evs) := body (h ++ [ECall fn args]) in
    (r, ECall fn args :: evs ++
        [match r with
         | Ok a => EReturn fn (to_py a)
         | Raise e => ERaise fn e
         end]).

Declare Scope py_scope.
Delimit Scope py_scope with py.
Notation "x <- c1 ;; c2" := (bind c1 (fun x => c2))
  (at level 100, c1 at next level, right associativity) : py_scope.
Notation "c1 ;; c2" := (bind c1 (fun _ => c2))
  (at level 100, right associativity) : py_scope.
Open Scope py_scope.

Section Model.
Context (lib : PyLib) (w : World).

(** [datetime.utcnow()] *)
Definition utcnow : M datetime :=
  fun h => let t := utcnow_at w h in (Ok t, [EUtcnow t]).

(** [http.request(...)] *)
Definition http_request (req : request) : M response :=
  fun h =>
    let out := http_request_at w h req in
    (match out with inl e => Raise e | inr resp => Ok resp end,
     [EHttpRequest req out]).

(** [secrets_client.get_secret_value(SecretId=name)] *)
Definition get_secret_value (name : string) : M secret_response :=
  fun h =>
    let out := get_secret_value_at w h name in
    (match out with inl e => Raise e | inr resp => Ok resp end,
     [EGetSecretValue name out]).

(** [response['SecretString']] *)
Definition getitem_SecretString (response : secret_response) : M string :=
  match SecretString response with
  | Some s => ret s
  | None => raise (KeyError "SecretString")
  end.

(** [config.get(key)]: only a dict has the method. *)
Definition dict_get (config : pyval) (key : string) : M pyval :=
  match config with
  | PDict d => ret (default PNone (d !! key))
  | _ => raise (AttributeError
                  ("'" +:+ type_name config +:+
                   "' object has no attribute 'get'"))
  end.

(** [f"{v}"] *)
Definition py_str (v : pyval) : string :=
  match v with
  | PStr s => s
  | _ => format_value lib v
  end.

(** check_web.py, lines 88-127 *)
Definition check_nginx_health (url : string) (timeout : Z) : M bool :=
  def "check_nginx_health" [PStr url; PInt timeout] PBool
    (try_except
       (print ("Making HTTP request to " +:+ url +:+ " with timeout "
               +:+ pretty timeout +:+ "s") ;;
        response <- http_request
          {| req_method := "GET"; req_url := PStr url;
             req_body := None; req_headers := []; req_fields := None;
             req_timeout := Some timeout;
             req_retries := Some {| total := 2; backoff_factor := 1 |} |} ;;
        print ("Response status: " +:+ pretty (resp_status response)) ;;
        if (200 <=? resp_status response) && (resp_status response <? 300)
        then
          let body := decode_utf8_ignore lib (resp_data response) in
          if contains "nginx" (str_lower body)
             || contains "welcome" (str_lower body)
          then
            print "✅ Response contains expected nginx content" ;;
            ret true
          else
            print "⚠️ Response status OK but no nginx content detected" ;;
            ret true
        else
          print ("❌ Unhealthy status code: "
                 +:+ pretty (resp_status response)) ;;
          ret false)
       (fun e =>
          print ("❌ Health check failed: " +:+ str_exn e) ;;
          ret false)).

(** The outcome of [get_secret] as a function of what Secrets Manager
    and [json.loads] answer. *)
Definition secret_outcome (out : exn + secret_response) : result pyval :=
  match out with
  | inl e => Raise e
  | inr {| SecretString := None |} => Raise (KeyError "SecretString")
  | inr {| SecretString := Some s |} =>
      match json_loads lib s with
      | inl e => Raise e
      | inr v => Ok v
      end
  end.

(** check_web.py, lines 129-150 *)
Definition get_secret (secret_name : string) : M pyval :=
  def "get_secret" [PStr secret_name] id
    (try_except
       (print ("Retrieving secret: " +:+ secret_name) ;;
        response <- get_secret_value secret_name ;;
        secret_string <- getitem_SecretString response ;;
        match json_loads lib secret_string with
        | inr v => ret v
        | inl e => raise e
        end)
       (fun e =>
          print ("Error retrieving secret: " +:+ str_exn e) ;;
          raise e)).

(** The alert of lines 184-208. *)
Definition slack_message (target_url : string) (now : datetime) : pyval :=
  PDict {[
    "text" := PStr "🚨 Nginx Health Check Alert";
    "attachments" := PList [PDict {[
      "color" := PStr "danger";
      "fields" := PList [
        PDict {[ "title" := PStr "Status";
                 "value" := PStr "❌ Nginx is not responding";
                 "short" := PBool true ]};
        PDict {[ "title" := PStr "Target URL";
                 "value" := PStr target_url;
                 "short" := PBool true ]};
        PDict {[ "title" := PStr "Time";
                 "value" := PStr (strftime lib now "%Y-%m-%d %H:%M:%S UTC");
                 "short" := PBool true ]} ] ]}] ]}.

(** The text of lines 238-244. *)
Definition telegram_message (target_url : string) (now : datetime)
  : string :=
  "🚨 *Nginx Health Check Alert*" +:+ newline +:+ newline
  +:+ "❌ *Status:* Nginx is not responding" +:+ newline
  +:+ "🌐 *URL:* `" +:+ target_url +:+ "`" +:+ newline
  +:+ "🕒 *Time:* " +:+ strftime lib now "%Y-%m-%d %H:%M:%S UTC"
  +:+ newline +:+ newline
  +:+ "Please check your nginx server immediately.".

(** The form fields of lines 248-252. *)
Definition telegram_payload (chat_id : pyval) (message : string) : pyval :=
  PDict {[ "chat_id" := chat_id;
           "text" := PStr message;
           "parse_mode" := PStr "Markdown" ]}.

(** check_web.py, lines 177-227 *)
Definition send_slack_notification (config : pyval) (target_url : string)
  : M bool :=
  def "send_slack_notification" [config; PStr target_url] PBool
    (webhook_url <- dict_get config "slack_webhook_url" ;;
     if negb (truthy webhook_url) then
       print "❌ Slack webhook URL not found in configuration" ;;
       ret false
     else
       now <- utcnow ;;
       let message := slack_message target_url now in
       try_except
         (response <- http_request
            {| req_method := "POST"; req_url := webhook_url;
               req_body := Some (json_dumps message);
               req_headers := [("Content-Type", "application/json")];
               req_fields := None; req_timeout := None;
               req_retries := None |} ;;
          if resp_status response =? 200 then
            print "✅ Slack notification sent successfully" ;;
            ret true
          else
            print ("❌ Slack notification failed: "
                   +:+ pretty (resp_status response)) ;;
            ret false)
         (fun e =>
            print ("❌ Error sending Slack notification: " +:+ str_exn e) ;;
            ret false)).

(** check_web.py, lines 229-271 *)
Definition send_telegram_notification (config : pyval) (target_url : string)
  : M bool :=
  def "send_telegram_notification" [config; PStr target_url] PBool
    (bot_token <- dict_get config "telegram_bot_token" ;;
     chat_id <- dict_get config "telegram_chat_id" ;;
     if negb (truthy bot_token) || negb (truthy chat_id) then
       print "❌ Telegram bot token or chat ID not found in configuration" ;;
       ret false
     else
       now <- utcnow ;;
       let message := telegram_message target_url now in
       let telegram_url :=
         "https://api.telegram.org/bot" +:+ py_str bot_token
         +:+ "/sendMessage" in
       let payload := telegram_payload chat_id message in
       try_except
         (response <- http_request
            {| req_method := "POST"; req_url := PStr telegram_url;
               req_body := None; req_headers := [];
               req_fields := Some payload; req_timeout := None;
               req_retries := None |} ;;
          if resp_status response =? 200 then
            print "✅ Telegram notification sent successfully" ;;
            ret true
          else
            print ("❌ Telegram notification failed: "
                   +:+ pretty (resp_status response)) ;;
            print ("Response: "
                   +:+ decode_utf8_ignore lib (resp_data response)) ;;
            ret false)
         (fun e =>
            print ("❌ Error sending Telegram notification: "
                   +:+ str_exn e) ;;
            ret false)).

(** check_web.py, lines 152-175 *)
Definition send_notification (notification_type : string) (config : pyval)
    (target_url : string) : M bool :=
  def "send_notification" [PStr notification_type; config; PStr target_url]
    PBool
    (try_except
       (if String.eqb (str_lower notification_type) "slack" then
          send_slack_notification config target_url
        else if String.eqb (str_lower notification_type) "telegram" then
          send_telegram_notification config target_url
        else
          print ("Unknown notification type: " +:+ notification_type) ;;
          ret false)
       (fun e =>
          print ("Error sending notification: " +:+ str_exn e) ;;
          ret false)).

(** The three bodies [handler] serialises. *)
Definition healthy_body (target_url : string) (t : datetime) : pyval :=
  PDict {[ "status" := PStr "healthy";
           "url" := PStr target_url;
           "timestamp" := PStr (isoformat lib t) ]}.

Definition unhealthy_body (target_url : string) (notification_sent : bool)
    (t : datetime) : pyval :=
  PDict {[ "status" := PStr "unhealthy";
           "url" := PStr target_url;
           "notification_sent" := PBool notification_sent;
           "timestamp" := PStr (isoformat lib t) ]}.

Definition error_body (e : exn) (t : datetime) : pyval :=
  PDict {[ "status" := PStr "error";
           "error" := PStr (str_exn e);
           "timestamp" := PStr (isoformat lib t) ]}.

(** check_web.py, lines 14-86.  [event] and [context] are not used. *)
Definition handler (event context : pyval) : M lambda_response :=
  t0 <- utcnow ;;
  print ("Starting nginx health check at " +:+ isoformat lib t0) ;;
  try_except
    (let target_url := environ w !! "TARGET_URL" in
     let notification_type :=
       default "slack" (environ w !! "NOTIFICATION_TYPE") in
     let secret_name := environ w !! "SECRET_NAME" in
     match target_url with
     | None | Some EmptyString =>
         raise (ValueError "TARGET_URL environment variable is required")
     | Some target_url =>
     match secret_name with
     | None | Some EmptyString =>
         raise (ValueError "SECRET_NAME environment variable is required")
     | Some secret_name =>
         print ("Checking URL: " +:+ target_url) ;;
         print ("Notification type: " +:+ notification_type) ;;
         is_healthy <- check_nginx_health target_url 10 ;;
         if is_healthy then
           print "✅ Nginx is healthy" ;;
           t <- utcnow ;;
           ret {| statusCode := 200;
                  body := json_dumps (healthy_body target_url t) |}
         else
           print "❌ Nginx is unhealthy - sending notification" ;;
           notification_config <- get_secret secret_name ;;
           notification_sent <-
             send_notification notification_type notification_config
               target_url ;;
           t <- utcnow ;;
           ret {| statusCode := 500;
                  body := json_dumps
                            (unhealthy_body target_url notification_sent t) |}
     end
     end)
    (fun e =>
       print ("Error in handler: " +:+ str_exn e) ;;
       t <- utcnow ;;
       ret {| statusCode := 500; body := json_dumps (error_body e t) |}).

End Model.

(** ** Concrete libraries and worlds, used to run the model *)

Module Samples.

Definition dq : string := String (ascii_of_nat 34) EmptyString.

Definition slack_secret : string :=
  "{" +:+ dq +:+ "slack_webhook_url" +:+ dq +:+ ": "
  +:+ dq +:+ "https://hooks.example/x" +:+ dq +:+ "}".

Definition telegram_secret : string :=
  "{" +:+ dq +:+ "telegram_bot_token" +:+ dq +:+ ": "
  +:+ dq +:+ "123:abc" +:+ dq +:+ ", "
  +:+ dq +:+ "telegram_chat_id" +:+ dq +:+ ": "
  +:+ dq +:+ "42" +:+ dq +:+ "}".

Definition slack_config : pyval :=
  PDict {[ "slack_webhook_url" := PStr "https://hooks.example/x" ]}.

Definition telegram_config : pyval :=
  PDict {[ "telegram_bot_token" := PStr "123:abc";
           "telegram_chat_id" := PStr "42" ]}.

(** [json.loads] on the few texts the samples store. *)
Definition sample_json_loads (s : string) : exn + pyval :=
  if String.eqb s slack_secret then inr slack_config
  else if String.eqb s telegram_secret then inr telegram_config
  else if String.eqb s "{}" then inr (PDict ∅)
  else if String.eqb s "[]" then inr (PList [])
  else if String.eqb s "null" then inr PNone
  else if String.eqb s "0" then inr (PInt 0)
  else inl (LibraryError "JSONDecodeError"
              "Expecting value: line 1 column 1 (char 0)").

Definition sample_lib : PyLib :=
  {| json_loads := sample_json_loads;
     decode_utf8_ignore := string_of_list_byte;
     isoformat := fun _ => "2024-01-01T00:00:00";
     strftime := fun _ _ => "2024-01-01 00:00:00 UTC";
     format_value := fun _ => "?" |}.

Definition epoch : datetime :=
  {| year := 2024; month := 1; day := 1;
     hour := 0; minute := 0; second := 0; microsecond := 0 |}.

(** A world in which every GET has outcome [get], every POST outcome
    [post] and every secret request outcome [secret]. *)
Definition world (env : gmap string string) (get post : exn + response)
    (secret : exn + secret_response) : World :=
  {| environ := env;
     utcnow_at := fun _ => epoch;
     http_request_at := fun _ req =>
       if String.eqb (req_method req) "GET" then get else post;
     get_secret_value_at := fun _ _ => secret |}.

Definition env_slack : gmap string string :=
  {[ "TARGET_URL" := "http://nginx.test/"; "SECRET_NAME" := "alerts" ]}.

Definition env_telegram : gmap string string :=
  {[ "TARGET_URL" := "http://nginx.test/"; "SECRET_NAME" := "alerts";
     "NOTIFICATION_TYPE" := "telegram" ]}.

Definition env_pager : gmap string string :=
  {[ "TARGET_URL" := "http://nginx.test/"; "SECRET_NAME" := "alerts";
     "NOTIFICATION_TYPE" := "pager" ]}.

Definition env_no_secret_name : gmap string string :=
  {[ "TARGET_URL" := "http://nginx.test/" ]}.

Definition env_empty_url : gmap string string :=
  {[ "TARGET_URL" := ""; "SECRET_NAME" := "alerts" ]}.

Definition status (code : Z) (data : string) : exn + response :=
  inr {| resp_status := code; resp_data := list_byte_of_string data |}.

Definition timed_out : exn + response :=
  inl (LibraryError "MaxRetryError" "Max retries exceeded").

Definition stored (s : string) : exn + secret_response :=
  inr {| SecretString := Some s |}.

Definition not_found : exn + secret_response :=
  inl (LibraryError "ResourceNotFoundException"
         "Secrets Manager can't find the specified secret.").

(** nginx answers 200 with its welcome page. *)
Definition nginx_up : World :=
  world env_slack (status 200 "Welcome to nginx!") timed_out not_found.

(** The target answers 204 with a body that names neither nginx nor
    welcome. *)
Definition target_204 : World :=
  world env_slack (status 204 "maintenance") timed_out not_found.

(** The probe times out; the secret holds Slack credentials and the
    webhook has outcome [post]. *)
Definition nginx_down_slack (post : exn + response) : World :=
  world env_slack timed_out post (stored slack_secret).

(** The same with NOTIFICATION_TYPE=telegram and Telegram credentials. *)
Definition nginx_down_telegram (post : exn + response) : World :=
  world env_telegram timed_out post (stored telegram_secret).

(** The probe times out and the secret does not exist. *)
Definition nginx_down_no_secret : World :=
  world env_slack timed_out (status 200 "ok") not_found.

(** The probe times out and the secret holds the JSON text [secret]. *)
Definition nginx_down_secret (secret : string) : World :=
  world env_slack timed_out (status 200 "ok") (stored secret).

(** SECRET_NAME is not set. *)
Definition unconfigured : World :=
  world env_no_secret_name (status 200 "Welcome to nginx!")
    (status 200 "ok") (stored slack_secret).

End Samples.

(** * Proofs *)

(** ** Observations distribute over the concatenation of event lists *)

Lemma calls_app fn evs1 evs2 :
  calls fn (evs1 ++ evs2) = calls fn evs1 ++ calls fn evs2.
Proof.
  induction evs1 as [|ev evs1 IH]; [reflexivity|].
  destruct ev; simpl; try exact IH.
  destruct (String.eqb fn0 fn); simpl; congruence.
Qed.

Lemma returns_app fn evs1 evs2 :
  returns fn (evs1 ++ evs2) = returns fn evs1 ++ returns fn evs2.
Proof.
  induction evs1 as [|ev evs1 IH]; [reflexivity|].
  destruct ev; simpl; try exact IH.
  destruct (String.eqb fn0 fn); simpl; congruence.
Qed.

Lemma raises_app fn evs1 evs2 :
  raises fn (evs1 ++ evs2) = raises fn evs1 ++ raises fn evs2.
Proof.
  induction evs1 as [|ev evs1 IH]; [reflexivity|].
  destruct ev; simpl; try exact IH.
  destruct (String.eqb fn0 fn); simpl; congruence.
Qed.

Lemma http_requests_app method evs1 evs2 :
  http_requests method (evs1 ++ evs2)
  = http_requests method evs1 ++ http_requests method evs2.
Proof.
  induction evs1 as [|ev evs1 IH]; [reflexivity|].
  destruct ev; simpl; try exact IH.
  destruct (String.eqb (req_method req) method); simpl; congruence.
Qed.

Lemma secret_requests_app evs1 evs2 :
  secret_requests (evs1 ++ evs2)
  = secret_requests evs1 ++ secret_requests evs2.
Proof.
  induction evs1 as [|ev evs1 IH]; [reflexivity|].
  destruct ev; simpl; congruence.
Qed.

Lemma answered_200_inr resp :
  answered_200 (inr resp) <-> resp_status resp = 200.
Proof.
  split.
  - intros (resp' & Heq & Hst). congruence.
  - intros Hst. exists resp. split; [reflexivity | exact Hst].
Qed.

Lemma answered_200_inl e : ~ answered_200 (inl e).
Proof. intros (resp & Heq & _). discriminate. Qed.

(** ** Running the model by cases on what the world answers *)

Ltac unfold_run :=
  unfold def, try_except, bind, print, ret, raise, utcnow, http_request,
    get_secret_value, getitem_SecretString, dict_get.

Ltac case_run :=
  repeat first
    [ progress cbn
    | match goal with
      | |- context [http_request_at ?w ?h ?r] =>
          destruct (http_request_at w h r) as [?e|?resp] eqn:?
      | |- context [get_secret_value_at ?w ?h ?n] =>
          destruct (get_secret_value_at w h n) as [?e|[[?s|]]] eqn:?
      | |- context [json_loads ?l ?s] =>
          destruct (json_loads l s) as [?e|?v] eqn:?
      | |- context [if ?b then _ else _] => destruct b eqn:?
      end ].

(** Closes [r = Ok true <-> a POST of the run was answered 200] once the
    run is a concrete list of events. *)
Ltac post_iff :=
  cbn; split;
  [ intros Hres;
    first [ discriminate Hres
          | eexists _, _; split;
            [left; reflexivity | apply answered_200_inr; lia] ]
  | intros (req & out & Hin & Hans); cbn in Hin;
    first [ contradiction
          | destruct Hin as [Hin|[]]; inversion Hin; subst;
            first [ apply answered_200_inl in Hans; contradiction
                  | apply answered_200_inr in Hans;
                    first [reflexivity | lia] ] ] ].

Section Proofs.
Context (lib : PyLib) (w : World).

(** ** [check_nginx_health] *)

(** What a run of the probe looks like from outside: it returns a bool,
    sends one GET and nothing else, and calls no other function. *)
Lemma check_nginx_health_facts url timeout h :
  exists healthy req out,
    (check_nginx_health lib w url timeout h).1 = Ok healthy
    /\ calls "check_nginx_health" (check_nginx_health lib w url timeout h).2
       = [[PStr url; PInt timeout]]
    /\ returns "check_nginx_health"
         (check_nginx_health lib w url timeout h).2 = [PBool healthy]
    /\ http_requests "GET" (check_nginx_health lib w url timeout h).2
       = [(req, out)]
    /\ http_requests "POST" (check_nginx_health lib w url timeout h).2 = []
    /\ secret_requests (check_nginx_health lib w url timeout h).2 = []
    /\ silent "get_secret" (check_nginx_health lib w url timeout h).2
    /\ silent "send_notification"
         (check_nginx_health lib w url timeout h).2
    /\ silent "send_slack_notification"
         (check_nginx_health lib w url timeout h).2
    /\ silent "send_telegram_notification"
         (check_nginx_health lib w url timeout h).2.
Proof.
  unfold check_nginx_health, silent. unfold_run. case_run; cbn.
  all: eexists _, _, _; repeat split; reflexivity.
Qed.

(** C1. For every response whose status is in [200, 300) the probe
    returns [True], whatever the body holds: the search for "nginx" or
    "welcome" in the body only selects the line that is printed. *)
Theorem probe_2xx_healthy_whatever_body url timeout h req resp :
  In (req, inr resp)
     (http_requests "GET" (check_nginx_health lib w url timeout h).2) ->
  200 <= resp_status resp < 300 ->
  (check_nginx_health lib w url timeout h).1 = Ok true.
Proof.
  unfold check_nginx_health. unfold_run. case_run; cbn.
  all: intros [Hin|[]]; inversion Hin; subst; first [reflexivity | lia].
Qed.

(** C2. The probe never raises: it returns a bool on every input, and
    that bool is [False] when the GET raised (timeout, connection error,
    ...) and when the status of the response is outside [200, 300). *)
Theorem probe_never_raises url timeout h :
  exists healthy req out,
    (check_nginx_health lib w url timeout h).1 = Ok healthy
    /\ raises "check_nginx_health"
         (check_nginx_health lib w url timeout h).2 = []
    /\ http_requests "GET" (check_nginx_health lib w url timeout h).2
       = [(req, out)]
    /\ match out with
       | inl _ => healthy = false
       | inr resp =>
           ~ (200 <= resp_status resp < 300) -> healthy = false
       end.
Proof.
  unfold check_nginx_health. unfold_run. case_run; cbn.
  all: eexists _, _, _; repeat split; try reflexivity; cbn.
  all: intros Hout; first [reflexivity | lia].
Qed.


(** ** [get_secret] *)

Lemma get_secret_facts name h :
  exists out,
    (get_secret lib w name h).1 = secret_outcome lib out
    /\ secret_requests (get_secret lib w name h).2 = [(name, out)]
    /\ calls "get_secret" (get_secret lib w name h).2 = [[PStr name]]
    /\ returns "get_secret" (get_secret lib w name h).2
       = match (get_secret lib w name h).1 with
         | Ok v => [v]
         | Raise _ => []
         end
    /\ raises "get_secret" (get_secret lib w name h).2
       = match (get_secret lib w name h).1 with
         | Ok _ => []
         | Raise e => [e]
         end
    /\ http_requests "GET" (get_secret lib w name h).2 = []
    /\ http_requests "POST" (get_secret lib w name h).2 = []
    /\ silent "check_nginx_health" (get_secret lib w name h).2
    /\ silent "send_notification" (get_secret lib w name h).2
    /\ silent "send_slack_notification" (get_secret lib w name h).2
    /\ silent "send_telegram_notification" (get_secret lib w name h).2.
Proof.
  unfold get_secret, silent. unfold_run. case_run; cbn.
  all: match goal with
       | H : get_secret_value_at _ _ _ = ?o |- _ => exists o
       end.
  all: repeat split; try reflexivity.
  all: cbn; match goal with H : json_loads _ _ = _ |- _ => rewrite H end.
  all: reflexivity.
Qed.

(** ** The notifiers *)

Lemma send_slack_notification_iff config url h :
  (send_slack_notification lib w config url h).1 = Ok true <->
  exists req out,
    In (req, out)
      (http_requests "POST" (send_slack_notification lib w config url h).2)
    /\ answered_200 out.
Proof.
  unfold send_slack_notification. unfold_run.
  destruct config; cbn; case_run; post_iff.
Qed.

Lemma send_telegram_notification_iff config url h :
  (send_telegram_notification lib w config url h).1 = Ok true <->
  exists req out,
    In (req, out)
      (http_requests "POST"
         (send_telegram_notification lib w config url h).2)
    /\ answered_200 out.
Proof.
  unfold send_telegram_notification. unfold_run.
  destruct config; cbn; case_run; post_iff.
Qed.

Lemma send_notification_iff nt config url h :
  (send_notification lib w nt config url h).1 = Ok true <->
  exists req out,
    In (req, out)
      (http_requests "POST" (send_notification lib w nt config url h).2)
    /\ answered_200 out.
Proof.
  unfold send_notification, send_slack_notification,
    send_telegram_notification.
  unfold_run. destruct config; cbn; case_run; post_iff.
Qed.

(** [send_notification] returns a bool, whatever happens inside, sends at
    most one POST and nothing else, and enters the notifier its first
    argument names. *)
Lemma send_notification_facts nt config url h :
  exists sent,
    (send_notification lib w nt config url h).1 = Ok sent
    /\ calls "send_notification" (send_notification lib w nt config url h).2
       = [[PStr nt; config; PStr url]]
    /\ returns "send_notification"
         (send_notification lib w nt config url h).2 = [PBool sent]
    /\ raises "send_notification"
         (send_notification lib w nt config url h).2 = []
    /\ calls "send_slack_notification"
         (send_notification lib w nt config url h).2
       = (if String.eqb (str_lower nt) "slack"
          then [[config; PStr url]] else [])
    /\ calls "send_telegram_notification"
         (send_notification lib w nt config url h).2
       = (if String.eqb (str_lower nt) "slack" then []
          else if String.eqb (str_lower nt) "telegram"
               then [[config; PStr url]] else [])
    /\ (length (http_requests "POST"
                  (send_notification lib w nt config url h).2) <= 1)%nat
    /\ http_requests "GET" (send_notification lib w nt config url h).2 = []
    /\ secret_requests (send_notification lib w nt config url h).2 = []
    /\ silent "check_nginx_health"
         (send_notification lib w nt config url h).2
    /\ silent "get_secret" (send_notification lib w nt config url h).2.
Proof.
  unfold send_notification, send_slack_notification,
    send_telegram_notification, silent.
  unfold_run. destruct config; cbn; case_run; cbn.
  all: eexists; repeat split; first [reflexivity | lia].
Qed.

(** With a [config] that is not a dict, [config.get] raises
    AttributeError in the notifier that was entered; nothing is posted
    and [send_notification] returns [False]. *)
Lemma send_notification_not_dict nt config url h :
  (forall d, config <> PDict d) ->
  let no_get := AttributeError ("'" +:+ type_name config
                                +:+ "' object has no attribute 'get'") in
  (send_notification lib w nt config url h).1 = Ok false
  /\ http_requests "POST" (send_notification lib w nt config url h).2 = []
  /\ raises "send_slack_notification"
       (send_notification lib w nt config url h).2
     = (if String.eqb (str_lower nt) "slack" then [no_get] else [])
  /\ raises "send_telegram_notification"
       (send_notification lib w nt config url h).2
     = (if String.eqb (str_lower nt) "slack" then []
        else if String.eqb (str_lower nt) "telegram"
             then [no_get] else []).
Proof.
  intros Hnot.
  unfold send_notification, send_slack_notification,
    send_telegram_notification.
  unfold_run.
  destruct config; try (exfalso; eapply Hnot; reflexivity).
  all: cbn; case_run; cbn; repeat split; reflexivity.
Qed.

(** The same for a dict that lacks a key its notifier needs. *)
Lemma send_slack_notification_no_key d url h :
  d !! "slack_webhook_url" = None ->
  (send_slack_notification lib w (PDict d) url h).1 = Ok false
  /\ http_requests "POST"
       (send_slack_notification lib w (PDict d) url h).2 = []
  /\ http_requests "GET"
       (send_slack_notification lib w (PDict d) url h).2 = [].
Proof.
  intros Hkey. unfold send_slack_notification. unfold_run.
  rewrite Hkey. cbn. repeat split; reflexivity.
Qed.

Lemma send_telegram_notification_no_key d url h :
  d !! "telegram_bot_token" = None \/ d !! "telegram_chat_id" = None ->
  (send_telegram_notification lib w (PDict d) url h).1 = Ok false
  /\ http_requests "POST"
       (send_telegram_notification lib w (PDict d) url h).2 = []
  /\ http_requests "GET"
       (send_telegram_notification lib w (PDict d) url h).2 = [].
Proof.
  intros Hkey. unfold send_telegram_notification. unfold_run.
  destruct Hkey as [Hkey|Hkey]; rewrite Hkey; cbn.
  - repeat split; reflexivity.
  - rewrite orb_true_r. cbn. repeat split; reflexivity.
Qed.


(** C8. A notifier returns [True] exactly when its POST is answered with
    status 200: a POST that raises, one answered with any other status
    (204 and the other 2xx included) and a send without POST all give
    something else.  This holds for the Slack notifier, the Telegram
    notifier and [send_notification], which never raises, so that
    "something else" is [False] there. *)
Theorem notify_true_iff_post_answered_200 nt config url h :
  ((send_slack_notification lib w config url h).1 = Ok true <->
   exists req resp,
     In (req, inr resp)
       (http_requests "POST" (send_slack_notification lib w config url h).2)
     /\ resp_status resp = 200)
  /\ ((send_telegram_notification lib w config url h).1 = Ok true <->
      exists req resp,
        In (req, inr resp)
          (http_requests "POST"
             (send_telegram_notification lib w config url h).2)
        /\ resp_status resp = 200)
  /\ exists sent,
      (send_notification lib w nt config url h).1 = Ok sent
      /\ (sent = true <->
          exists req resp,
            In (req, inr resp)
              (http_requests "POST"
                 (send_notification lib w nt config url h).2)
            /\ resp_status resp = 200).
Proof.
  assert (Hans : forall (l : list (request * (exn + response))),
             (exists req out, In (req, out) l /\ answered_200 out)
             <-> exists req resp, In (req, inr resp) l
                                  /\ resp_status resp = 200).
  { intros l. split.
    - intros (req & out & Hin & resp & -> & Hst). exists req, resp. auto.
    - intros (req & resp & Hin & Hst). exists req, (inr resp).
      split; [exact Hin|]. apply answered_200_inr, Hst. }
  rewrite <- !Hans. split; [apply send_slack_notification_iff|].
  split; [apply send_telegram_notification_iff|].
  destruct (send_notification_facts nt config url h) as (sent & Hsent & _).
  exists sent. split; [exact Hsent|].
  rewrite <- Hans, <- send_notification_iff, Hsent.
  split; [intros ->; reflexivity | intros [= ->]; reflexivity].
Qed.

(** C9. With credentials that lack a key the selected channel needs
    (slack_webhook_url for Slack; telegram_bot_token or telegram_chat_id
    for Telegram) the notifier returns [False] and the send makes no HTTP
    request at all. *)
Theorem missing_credentials_no_http nt (d : gmap string pyval) url h :
  (str_lower nt = "slack" /\ d !! "slack_webhook_url" = None)
  \/ (str_lower nt = "telegram"
      /\ (d !! "telegram_bot_token" = None
          \/ d !! "telegram_chat_id" = None)) ->
  (send_notification lib w nt (PDict d) url h).1 = Ok false
  /\ returns ("send_" +:+ str_lower nt +:+ "_notification")
       (send_notification lib w nt (PDict d) url h).2 = [PBool false]
  /\ forall method,
      http_requests method (send_notification lib w nt (PDict d) url h).2
      = [].
Proof.
  unfold send_notification, send_slack_notification,
    send_telegram_notification.
  unfold_run.
  intros [[-> Hkey]|[-> [Hkey|Hkey]]]; rewrite Hkey; cbn.
  - repeat split; reflexivity.
  - repeat split; reflexivity.
  - rewrite orb_true_r. cbn. repeat split; reflexivity.
Qed.

(** ** [handler] *)

(** The four ways through [handler]: the configuration is incomplete;
    the probe is healthy; the probe is unhealthy and the secret cannot
    be fetched; the probe is unhealthy and a notification is attempted.
    Each gives the response and the events of the invocation in terms
    of the runs of the functions called on the way. *)
Lemma handler_cases ev ctx h :
  (exists e t0 t1 s0 s1,
      handler lib w ev ctx h
      = (Ok {| statusCode := 500; body := json_dumps (error_body lib e t1) |},
         [EUtcnow t0; EPrint s0; EPrint s1; EUtcnow t1]))
  \/ exists url name t0 s0 s1 s2 h1,
      environ w !! "TARGET_URL" = Some url
      /\ environ w !! "SECRET_NAME" = Some name
      /\ ((exists t s3,
              (check_nginx_health lib w url 10 h1).1 = Ok true
              /\ handler lib w ev ctx h
                 = (Ok {| statusCode := 200;
                          body := json_dumps (healthy_body lib url t) |},
                    [EUtcnow t0; EPrint s0; EPrint s1; EPrint s2]
                    ++ (check_nginx_health lib w url 10 h1).2
                    ++ [EPrint s3; EUtcnow t]))
          \/ (exists e t s3 s4 h2,
                 (check_nginx_health lib w url 10 h1).1 = Ok false
                 /\ (get_secret lib w name h2).1 = Raise e
                 /\ handler lib w ev ctx h
                    = (Ok {| statusCode := 500;
                             body := json_dumps (error_body lib e t) |},
                       [EUtcnow t0; EPrint s0; EPrint s1; EPrint s2]
                       ++ (check_nginx_health lib w url 10 h1).2
                       ++ [EPrint s3]
                       ++ (get_secret lib w name h2).2
                       ++ [EPrint s4; EUtcnow t]))
          \/ (exists config sent t s3 h2 h3,
                 let nt := default "slack"
                             (environ w !! "NOTIFICATION_TYPE") in
                 (check_nginx_health lib w url 10 h1).1 = Ok false
                 /\ (get_secret lib w name h2).1 = Ok config
                 /\ (send_notification lib w nt config url h3).1 = Ok sent
                 /\ handler lib w ev ctx h
                    = (Ok {| statusCode := 500;
                             body := json_dumps
                                       (unhealthy_body lib url sent t) |},
                       [EUtcnow t0; EPrint s0; EPrint s1; EPrint s2]
                       ++ (check_nginx_health lib w url 10 h1).2
                       ++ [EPrint s3]
                       ++ (get_secret lib w name h2).2
                       ++ (send_notification lib w nt config url h3).2
                       ++ [EUtcnow t]))).
Proof.
  unfold handler. unfold_run.
  destruct (environ w !! "TARGET_URL") as [[|c url]|];
    destruct (environ w !! "SECRET_NAME") as [[|c' name]|];
    cbn; try (left; eexists _, _, _, _, _; reflexivity).
  right. exists (String c url), (String c' name).
  match goal with
  | |- context [check_nginx_health lib w ?u ?t ?hh] =>
      destruct (check_nginx_health_facts u t hh)
        as (healthy & _ & _ & Hres & _);
      destruct (check_nginx_health lib w u t hh) as [rc evc] eqn:Ec
  end.
  cbn in Hres. subst rc. destruct healthy; cbn.
  { eexists _, _, _, _, _. do 2 (split; [reflexivity|]).
    left. eexists _, _. rewrite Ec. split; reflexivity. }
  match goal with
  | |- context [get_secret lib w ?n ?hh] =>
      destruct (get_secret lib w n hh) as [[config|e] evs] eqn:Es
  end.
  2:{ eexists _, _, _, _, _. do 2 (split; [reflexivity|]).
      right. left. eexists _, _, _, _, _. rewrite Ec, Es. cbn.
      do 2 (split; [reflexivity|]).
      rewrite <- !app_assoc. reflexivity. }
  match goal with
  | |- context [send_notification lib w ?n ?c ?u ?hh] =>
      destruct (send_notification_facts n c u hh)
        as (sent & Hsent & _);
      destruct (send_notification lib w n c u hh) as [rn evn] eqn:En
  end.
  cbn in Hsent. subst rn.
  eexists _, _, _, _, _. do 2 (split; [reflexivity|]).
  right. right. eexists _, _, _, _, _, _. rewrite Ec, Es, En. cbn.
  do 3 (split; [reflexivity|]).
  rewrite <- !app_assoc. reflexivity.
Qed.


(** Case analysis on the path an invocation takes, with the facts about
    the functions it ran. *)
Ltac handler_paths ev ctx h :=
  destruct (handler_cases ev ctx h) as
    [ (e & t0 & t1 & s0 & s1 & Hrun)
    | (url & name & t0 & s0 & s1 & s2 & h1 & Hurl & Hname &
       [ (t & s3 & Hc & Hrun)
       | [ (e & t & s3 & s4 & h2 & Hc & Hs & Hrun)
         | (config & sent & t & s3 & h2 & h3 & Hc & Hs & Hn & Hrun) ] ]) ];
  rewrite Hrun; clear Hrun; cbn [fst snd].

Ltac probe_facts Hc :=
  match type of Hc with
  | (check_nginx_health _ _ ?u ?t ?hh).1 = _ =>
      destruct (check_nginx_health_facts u t hh)
        as (?healthy & ?req & ?out & ?Fc & ?Fc & ?Fc & ?Fc & ?Fc & ?Fc
            & (?Fc & ?Fc & ?Fc) & (?Fc & ?Fc & ?Fc)
            & (?Fc & ?Fc & ?Fc) & (?Fc & ?Fc & ?Fc));
      rewrite Hc in *;
      match goal with H : Ok _ = Ok _ |- _ => injection H as <- end
  end.

Ltac secret_facts Hs :=
  match type of Hs with
  | (get_secret _ _ ?n ?hh).1 = _ =>
      destruct (get_secret_facts n hh)
        as (?out & ?Fs & ?Fs & ?Fs & ?Fs & ?Fs & ?Fs & ?Fs
            & (?Fs & ?Fs & ?Fs) & (?Fs & ?Fs & ?Fs)
            & (?Fs & ?Fs & ?Fs) & (?Fs & ?Fs & ?Fs));
      rewrite Hs in *
  end.

Ltac notify_facts Hn :=
  match type of Hn with
  | (send_notification _ _ ?n ?c ?u ?hh).1 = _ =>
      destruct (send_notification_facts n c u hh)
        as (?sent & ?Fn & ?Fn & ?Fn & ?Fn & ?Fn & ?Fn & ?Fn & ?Fn & ?Fn
            & (?Fn & ?Fn & ?Fn) & (?Fn & ?Fn & ?Fn));
      rewrite Hn in *;
      match goal with H : Ok _ = Ok _ |- _ => injection H as <- end
  end.

(** Computes the observations of a concatenation of runs from the facts
    in the context. *)
Ltac observe :=
  rewrite ?calls_app, ?returns_app, ?raises_app, ?http_requests_app,
    ?secret_requests_app;
  repeat match goal with
    | H : calls _ _ = _ |- _ => rewrite H
    | H : returns _ _ = _ |- _ => rewrite H
    | H : raises _ _ = _ |- _ => rewrite H
    | H : http_requests _ _ = _ |- _ => rewrite H
    | H : secret_requests _ = _ |- _ => rewrite H
    end;
  cbn.

(** C3. When TARGET_URL or SECRET_NAME is absent or empty, [handler]
    returns statusCode 500 with a body of status "error", and the
    invocation sends no HTTP request, asks Secrets Manager nothing and
    calls none of the module's functions. *)
Theorem missing_configuration_is_error ev ctx h :
  environ w !! "TARGET_URL" = None \/ environ w !! "TARGET_URL" = Some ""
  \/ environ w !! "SECRET_NAME" = None
  \/ environ w !! "SECRET_NAME" = Some "" ->
  (exists var t,
      (var = "TARGET_URL" \/ var = "SECRET_NAME")
      /\ (handler lib w ev ctx h).1
         = Ok {| statusCode := 500;
                 body := json_dumps
                   (error_body lib
                      (ValueError
                         (var +:+ " environment variable is required"))
                      t) |})
  /\ (forall method, http_requests method (handler lib w ev ctx h).2 = [])
  /\ secret_requests (handler lib w ev ctx h).2 = []
  /\ (forall fn, calls fn (handler lib w ev ctx h).2 = []).
Proof.
  unfold handler. unfold_run.
  destruct (environ w !! "TARGET_URL") as [[|c url]|];
    destruct (environ w !! "SECRET_NAME") as [[|c' name]|];
    intros [Hcfg|[Hcfg|[Hcfg|Hcfg]]]; try discriminate Hcfg; cbn.
  all: split; [|repeat split; reflexivity].
  all: lazymatch goal with
       | |- context [ValueError "TARGET_URL environment variable is required"] =>
           exists "TARGET_URL"; eexists; split; [left|]; reflexivity
       | |- _ =>
           exists "SECRET_NAME"; eexists; split; [right|]; reflexivity
       end.
Qed.

(** C7. When the probe finds the target healthy, [handler] returns
    statusCode 200 with a body of status "healthy", the target URL and a
    timestamp; Secrets Manager is not asked, no notifier is called and
    nothing is posted. *)
Theorem healthy_probe_no_secret_no_notification ev ctx h :
  returns "check_nginx_health" (handler lib w ev ctx h).2 = [PBool true] ->
  (exists url t,
      environ w !! "TARGET_URL" = Some url
      /\ (handler lib w ev ctx h).1
         = Ok {| statusCode := 200;
                 body := json_dumps (healthy_body lib url t) |})
  /\ secret_requests (handler lib w ev ctx h).2 = []
  /\ calls "get_secret" (handler lib w ev ctx h).2 = []
  /\ calls "send_notification" (handler lib w ev ctx h).2 = []
  /\ calls "send_slack_notification" (handler lib w ev ctx h).2 = []
  /\ calls "send_telegram_notification" (handler lib w ev ctx h).2 = []
  /\ http_requests "POST" (handler lib w ev ctx h).2 = [].
Proof.
  handler_paths ev ctx h.
  - discriminate.
  - probe_facts Hc. observe. intros _.
    split; [eexists _, _; split; [exact Hurl | reflexivity]|].
    repeat split; reflexivity.
  - probe_facts Hc. observe. intros; congruence.
  - probe_facts Hc. observe. intros; congruence.
Qed.


(** C4. When the probe finds the target unhealthy and the secret is
    fetched, a notification that is not delivered (no POST of the
    invocation is answered 200: the POST raised, was answered another
    status, or none was sent because a credential is missing or the
    channel is unknown) does not turn into an error: [handler] returns
    statusCode 500 with a body of status "unhealthy" and
    notification_sent false. *)
Theorem undelivered_notification_is_unhealthy ev ctx h cfg :
  returns "check_nginx_health" (handler lib w ev ctx h).2 = [PBool false] ->
  returns "get_secret" (handler lib w ev ctx h).2 = [cfg] ->
  (forall req out,
      In (req, out) (http_requests "POST" (handler lib w ev ctx h).2) ->
      ~ answered_200 out) ->
  exists url t,
    environ w !! "TARGET_URL" = Some url
    /\ (handler lib w ev ctx h).1
       = Ok {| statusCode := 500;
               body := json_dumps (unhealthy_body lib url false t) |}.
Proof.
  handler_paths ev ctx h.
  - discriminate.
  - probe_facts Hc. observe. intros; congruence.
  - probe_facts Hc. secret_facts Hs. observe. intros; congruence.
  - probe_facts Hc. secret_facts Hs.
    pose proof (send_notification_iff
                  (default "slack" (environ w !! "NOTIFICATION_TYPE"))
                  config url h3) as Hiff.
    notify_facts Hn. observe.
    intros _ _ Hnone. exists url, t. split; [exact Hurl|].
    destruct sent; [|reflexivity].
    destruct Hiff as [(rq & ot & Hin & Hans) _]; [reflexivity|].
    exfalso. apply (Hnone rq ot); [|exact Hans].
    rewrite app_nil_r. exact Hin.
Qed.


(** C5. When the probe finds the target unhealthy and [get_secret]
    raises (secret not found, access denied, payload that is not JSON),
    [handler] returns statusCode 500 with a body of status "error"
    carrying that exception, and no notifier is called and nothing is
    posted. *)
Theorem secret_failure_is_error ev ctx h err :
  returns "check_nginx_health" (handler lib w ev ctx h).2 = [PBool false] ->
  raises "get_secret" (handler lib w ev ctx h).2 = [err] ->
  (exists t,
      (handler lib w ev ctx h).1
      = Ok {| statusCode := 500;
              body := json_dumps (error_body lib err t) |})
  /\ calls "send_notification" (handler lib w ev ctx h).2 = []
  /\ calls "send_slack_notification" (handler lib w ev ctx h).2 = []
  /\ calls "send_telegram_notification" (handler lib w ev ctx h).2 = []
  /\ http_requests "POST" (handler lib w ev ctx h).2 = [].
Proof.
  handler_paths ev ctx h.
  - discriminate.
  - probe_facts Hc. observe. intros; congruence.
  - probe_facts Hc. secret_facts Hs. observe.
    intros _ [= ->]. split; [eexists; reflexivity|].
    repeat split; reflexivity.
  - probe_facts Hc. secret_facts Hs. notify_facts Hn. observe.
    intros; congruence.
Qed.

(** C6. When the probe finds the target unhealthy and the secret is
    fetched, [send_notification] is called exactly once, with the value
    of NOTIFICATION_TYPE, or "slack" when the variable is unset, and
    with the fetched secret.  "slack" enters the Slack notifier once and
    the Telegram notifier never, "telegram" the other way round; in all
    cases at most one POST is sent. *)
Theorem one_notification_on_selected_channel ev ctx h cfg :
  returns "check_nginx_health" (handler lib w ev ctx h).2 = [PBool false] ->
  returns "get_secret" (handler lib w ev ctx h).2 = [cfg] ->
  exists url notification_type,
    environ w !! "TARGET_URL" = Some url
    /\ notification_type
       = default "slack" (environ w !! "NOTIFICATION_TYPE")
    /\ calls "send_notification" (handler lib w ev ctx h).2
       = [[PStr notification_type; cfg; PStr url]]
    /\ (str_lower notification_type = "slack" ->
        calls "send_slack_notification" (handler lib w ev ctx h).2
        = [[cfg; PStr url]]
        /\ calls "send_telegram_notification" (handler lib w ev ctx h).2
           = [])
    /\ (str_lower notification_type = "telegram" ->
        calls "send_telegram_notification" (handler lib w ev ctx h).2
        = [[cfg; PStr url]]
        /\ calls "send_slack_notification" (handler lib w ev ctx h).2
           = [])
    /\ (length (http_requests "POST" (handler lib w ev ctx h).2) <= 1)%nat.
Proof.
  handler_paths ev ctx h.
  - discriminate.
  - probe_facts Hc. observe. intros; congruence.
  - probe_facts Hc. secret_facts Hs. observe. intros; congruence.
  - probe_facts Hc. secret_facts Hs. notify_facts Hn. observe.
    intros _ [= ->]. eexists url, _.
    split; [exact Hurl|]. split; [reflexivity|]. split; [reflexivity|].
    rewrite !app_nil_r. split; [|split; [|assumption]].
    + intros Hlower. rewrite Hlower. split; reflexivity.
    + intros Hlower. rewrite Hlower. split; reflexivity.
Qed.

(** C10. When the stored secret is valid JSON but not an object,
    [get_secret] returns the parsed value without raising, and an
    unhealthy probe still ends in statusCode 500 with a body of status
    "unhealthy" and notification_sent false, not in an error result:
    [config.get] raises AttributeError in the notifier that is entered,
    [send_notification] catches it and returns [False], and nothing is
    posted. *)
Theorem non_object_secret_is_unhealthy ev ctx h secret_name s v :
  returns "check_nginx_health" (handler lib w ev ctx h).2 = [PBool false] ->
  secret_requests (handler lib w ev ctx h).2
  = [(secret_name, inr {| SecretString := Some s |})] ->
  json_loads lib s = inr v ->
  (forall d, v <> PDict d) ->
  let notification_type :=
    default "slack" (environ w !! "NOTIFICATION_TYPE") in
  let no_get := AttributeError ("'" +:+ type_name v
                                +:+ "' object has no attribute 'get'") in
  returns "get_secret" (handler lib w ev ctx h).2 = [v]
  /\ raises "get_secret" (handler lib w ev ctx h).2 = []
  /\ (exists url t,
        environ w !! "TARGET_URL" = Some url
        /\ (handler lib w ev ctx h).1
           = Ok {| statusCode := 500;
                   body := json_dumps (unhealthy_body lib url false t) |})
  /\ returns "send_notification" (handler lib w ev ctx h).2 = [PBool false]
  /\ raises "send_notification" (handler lib w ev ctx h).2 = []
  /\ (str_lower notification_type = "slack" ->
      raises "send_slack_notification" (handler lib w ev ctx h).2
      = [no_get])
  /\ (str_lower notification_type = "telegram" ->
      raises "send_telegram_notification" (handler lib w ev ctx h).2
      = [no_get])
  /\ http_requests "POST" (handler lib w ev ctx h).2 = [].
Proof.
  intros Hprobe Hreq Hjson Hnot. cbv zeta. revert Hprobe Hreq.
  handler_paths ev ctx h.
  - discriminate.
  - probe_facts Hc. observe. intros; congruence.
  - probe_facts Hc. secret_facts Hs. observe.
    intros _ [= -> ->]. cbn in Fs. rewrite Hjson in Fs. discriminate Fs.
  - probe_facts Hc. secret_facts Hs.
    pose proof (send_notification_not_dict
                  (default "slack" (environ w !! "NOTIFICATION_TYPE"))
                  config url h3) as Hnd.
    cbv zeta in Hnd.
    notify_facts Hn. observe.
    intros _ [= -> ->]. cbn in Fs. rewrite Hjson in Fs.
    injection Fs as ->.
    destruct (Hnd Hnot) as ([= ->] & Hpost & Hslack & Htelegram).
    rewrite !app_nil_r, Hpost, Hslack, Htelegram.
    do 2 (split; [reflexivity|]).
    split; [exists url, t; split; [exact Hurl | reflexivity]|].
    do 2 (split; [reflexivity|]).
    split; [|split; [|reflexivity]].
    + intros Hlower. rewrite Hlower. reflexivity.
    + intros Hlower. rewrite Hlower. reflexivity.
Qed.

(** * Further properties of the module *)

Lemma prints_app evs1 evs2 :
  prints (evs1 ++ evs2) = prints evs1 ++ prints evs2.
Proof.
  induction evs1 as [|ev evs1 IH]; [reflexivity|].
  destruct ev; simpl; congruence.
Qed.

Lemma request_kinds_app evs1 evs2 :
  request_kinds (evs1 ++ evs2) = request_kinds evs1 ++ request_kinds evs2.
Proof.
  induction evs1 as [|ev evs1 IH]; [reflexivity|].
  destruct ev; simpl; congruence.
Qed.

(** ** [get_secret] *)

(** X2. On success [get_secret] returns what [json.loads] made of the
    SecretString that Secrets Manager answered, and nothing else makes it
    succeed. *)
Theorem get_secret_returns_parsed_secret name h v :
  (get_secret lib w name h).1 = Ok v <->
  exists s,
    secret_requests (get_secret lib w name h).2
    = [(name, inr {| SecretString := Some s |})]
    /\ json_loads lib s = inr v.
Proof.
  destruct (get_secret_facts name h) as (out & Hres & Hreq & _).
  rewrite Hres, Hreq. split.
  - destruct out as [e|[[s|]]]; cbn; try discriminate.
    intros Hv. exists s. split; [reflexivity|].
    destruct (json_loads lib s); congruence.
  - intros (s & [= ->] & Hjson). cbn. rewrite Hjson. reflexivity.
Qed.


(** ** The notifiers *)

(** X4. Given a dict, the Slack notifier returns a bool and never raises.
    It posts exactly when [slack_webhook_url] is present and truthy (an
    empty string or null counts as missing): then it sends one POST, to
    that URL, with the alert as JSON body and a JSON content type;
    otherwise it returns [False] and sends nothing. *)
Theorem slack_posts_iff_webhook_url (d : gmap string pyval) url h :
  let webhook_url := default PNone (d !! "slack_webhook_url") in
  exists sent,
    (send_slack_notification lib w (PDict d) url h).1 = Ok sent
    /\ http_requests "GET"
         (send_slack_notification lib w (PDict d) url h).2 = []
    /\ if truthy webhook_url then
         exists now out,
           http_requests "POST"
             (send_slack_notification lib w (PDict d) url h).2
           = [({| req_method := "POST"; req_url := webhook_url;
                  req_body := Some (json_dumps (slack_message lib url now));
                  req_headers := [("Content-Type", "application/json")];
                  req_fields := None; req_timeout := None;
                  req_retries := None |}, out)]
       else
         sent = false
         /\ http_requests "POST"
              (send_slack_notification lib w (PDict d) url h).2 = [].
Proof.
  unfold send_slack_notification. unfold_run. cbn.
  destruct (truthy (default PNone (d !! "slack_webhook_url"))); cbn.
  - case_run; eexists; repeat split; eexists _, _; reflexivity.
  - eexists. repeat split; reflexivity.
Qed.

(** X5. Given a dict, the Telegram notifier returns a bool and never
    raises.  It posts exactly when [telegram_bot_token] and
    [telegram_chat_id] are both present and truthy: then it sends one
    POST to the sendMessage endpoint of that bot, with the chat id, the
    alert text and the Markdown parse mode as form fields; otherwise it
    returns [False] and sends nothing. *)
Theorem telegram_posts_iff_token_and_chat (d : gmap string pyval) url h :
  let bot_token := default PNone (d !! "telegram_bot_token") in
  let chat_id := default PNone (d !! "telegram_chat_id") in
  exists sent,
    (send_telegram_notification lib w (PDict d) url h).1 = Ok sent
    /\ http_requests "GET"
         (send_telegram_notification lib w (PDict d) url h).2 = []
    /\ if truthy bot_token && truthy chat_id then
         exists now out,
           http_requests "POST"
             (send_telegram_notification lib w (PDict d) url h).2
           = [({| req_method := "POST";
                  req_url := PStr ("https://api.telegram.org/bot"
                                   +:+ py_str lib bot_token
                                   +:+ "/sendMessage");
                  req_body := None; req_headers := [];
                  req_fields :=
                    Some (telegram_payload chat_id
                            (telegram_message lib url now));
                  req_timeout := None; req_retries := None |}, out)]
       else
         sent = false
         /\ http_requests "POST"
              (send_telegram_notification lib w (PDict d) url h).2 = [].
Proof.
  unfold send_telegram_notification. unfold_run. cbn.
  destruct (truthy (default PNone (d !! "telegram_bot_token")));
    destruct (truthy (default PNone (d !! "telegram_chat_id"))); cbn.
  - case_run; eexists; repeat split; eexists _, _; reflexivity.
  - eexists. repeat split; reflexivity.
  - eexists. repeat split; reflexivity.
  - eexists. repeat split; reflexivity.
Qed.

(** X6. Given credentials that are not a dict (a JSON array, string,
    number, boolean or null), both notifiers raise the AttributeError of
    [config.get] before they send anything. *)
Theorem notifiers_need_a_dict config url h :
  (forall d, config <> PDict d) ->
  let no_get := AttributeError ("'" +:+ type_name config
                                +:+ "' object has no attribute 'get'") in
  (send_slack_notification lib w config url h).1 = Raise no_get
  /\ request_kinds (send_slack_notification lib w config url h).2 = []
  /\ (send_telegram_notification lib w config url h).1 = Raise no_get
  /\ request_kinds (send_telegram_notification lib w config url h).2 = [].
Proof.
  intros Hnot.
  unfold send_slack_notification, send_telegram_notification. unfold_run.
  destruct config; try (exfalso; eapply Hnot; reflexivity).
  all: cbn; repeat split; reflexivity.
Qed.


(** A send asks Secrets Manager nothing and sends no request but its
    POSTs. *)
Lemma send_notification_request_kinds nt config url h :
  request_kinds (send_notification lib w nt config url h).2 = []
  \/ request_kinds (send_notification lib w nt config url h).2 = ["POST"].
Proof.
  unfold send_notification, send_slack_notification,
    send_telegram_notification.
  unfold_run. destruct config; cbn; case_run; auto.
Qed.

Lemma get_secret_request_kinds name h :
  request_kinds (get_secret lib w name h).2 = ["get_secret_value"].
Proof. unfold get_secret. unfold_run. case_run; reflexivity. Qed.

(** The probe is one GET of the URL, with the timeout it was given and
    two retries with backoff factor 1. *)
Lemma check_nginx_health_request url timeout h :
  request_kinds (check_nginx_health lib w url timeout h).2 = ["GET"]
  /\ exists out,
      http_requests "GET" (check_nginx_health lib w url timeout h).2
      = [({| req_method := "GET"; req_url := PStr url;
             req_body := None; req_headers := []; req_fields := None;
             req_timeout := Some timeout;
             req_retries := Some {| total := 2; backoff_factor := 1 |} |},
          out)].
Proof.
  unfold check_nginx_health. unfold_run.
  case_run; (split; [reflexivity | eexists; reflexivity]).
Qed.

(** ** [handler] *)


(** X8. [handler] never raises: every invocation returns a response, with
    statusCode 200 when the probe returned [True] and statusCode 500 in
    every other case. *)
Theorem handler_always_responds ev ctx h :
  exists r,
    (handler lib w ev ctx h).1 = Ok r
    /\ ((statusCode r = 200
         /\ returns "check_nginx_health" (handler lib w ev ctx h).2
            = [PBool true])
        \/ (statusCode r = 500
            /\ returns "check_nginx_health" (handler lib w ev ctx h).2
               <> [PBool true])).
Proof.
  handler_paths ev ctx h.
  - eexists. split; [reflexivity|]. right. split; [reflexivity|].
    cbn. discriminate.
  - probe_facts Hc. eexists. split; [reflexivity|]. left.
    split; [reflexivity|]. observe. reflexivity.
  - probe_facts Hc. secret_facts Hs. eexists. split; [reflexivity|].
    right. split; [reflexivity|]. observe. discriminate.
  - probe_facts Hc. secret_facts Hs. notify_facts Hn.
    eexists. split; [reflexivity|]. right. split; [reflexivity|].
    observe. discriminate.
Qed.



(** X11. When a POST of the invocation is answered 200, [handler] returns
    statusCode 500 with a body of status "unhealthy" and
    notification_sent true. *)
Theorem delivered_notification_is_reported ev ctx h :
  (exists req out,
      In (req, out) (http_requests "POST" (handler lib w ev ctx h).2)
      /\ answered_200 out) ->
  exists url t,
    environ w !! "TARGET_URL" = Some url
    /\ (handler lib w ev ctx h).1
       = Ok {| statusCode := 500;
               body := json_dumps (unhealthy_body lib url true t) |}.
Proof.
  handler_paths ev ctx h.
  - intros (rq & ot & [] & _).
  - probe_facts Hc. observe. intros (rq & ot & [] & _).
  - probe_facts Hc. secret_facts Hs. observe. intros (rq & ot & [] & _).
  - probe_facts Hc. secret_facts Hs.
    pose proof (send_notification_iff
                  (default "slack" (environ w !! "NOTIFICATION_TYPE"))
                  config url h3) as Hiff.
    notify_facts Hn. observe. rewrite app_nil_r. intros Hpost.
    apply Hiff in Hpost. injection Hpost as ->.
    exists url, t. split; [exact Hurl | reflexivity].
Qed.

(** X12. The requests of an invocation leave in a fixed order and none is
    repeated: the GET of the probe, then the request to Secrets Manager,
    then the POST of the notification; an invocation stops after any of
    them, or sends none. *)
Theorem requests_in_order ev ctx h :
  request_kinds (handler lib w ev ctx h).2 = []
  \/ request_kinds (handler lib w ev ctx h).2 = ["GET"]
  \/ request_kinds (handler lib w ev ctx h).2 = ["GET"; "get_secret_value"]
  \/ request_kinds (handler lib w ev ctx h).2
     = ["GET"; "get_secret_value"; "POST"].
Proof.
  handler_paths ev ctx h; rewrite ?request_kinds_app;
    try (destruct (check_nginx_health_request url 10 h1) as (-> & _)).
  - left. reflexivity.
  - right. left. reflexivity.
  - rewrite get_secret_request_kinds. right. right. left. reflexivity.
  - rewrite get_secret_request_kinds.
    destruct (send_notification_request_kinds
                (default "slack" (environ w !! "NOTIFICATION_TYPE"))
                config url h3) as [-> | ->].
    + right. right. left. reflexivity.
    + right. right. right. reflexivity.
Qed.

(** X13. TARGET_URL is checked first: when it is absent or empty the
    error names TARGET_URL, whatever SECRET_NAME is; the error names
    SECRET_NAME only when TARGET_URL is set and SECRET_NAME is absent or
    empty. *)
Theorem configuration_checked_in_order ev ctx h var :
  (var = "TARGET_URL"
   /\ (environ w !! "TARGET_URL" = None
       \/ environ w !! "TARGET_URL" = Some ""))
  \/ (var = "SECRET_NAME"
      /\ (exists url, environ w !! "TARGET_URL" = Some url /\ url <> "")
      /\ (environ w !! "SECRET_NAME" = None
          \/ environ w !! "SECRET_NAME" = Some "")) ->
  exists t,
    (handler lib w ev ctx h).1
    = Ok {| statusCode := 500;
            body := json_dumps
              (error_body lib
                 (ValueError (var +:+ " environment variable is required"))
                 t) |}.
Proof.
  unfold handler. unfold_run.
  intros [(-> & [Hcfg|Hcfg])
         |(-> & (url & Hurl & Hu) & [Hcfg|Hcfg])];
    try rewrite Hurl; rewrite Hcfg;
    try (destruct url as [|c url]; [contradiction|]);
    try (destruct (environ w !! "SECRET_NAME") as [[|c' name]|]);
    cbn; eexists; reflexivity.
Qed.

End Proofs.

(** * The theorems at work on concrete worlds *)

Import Samples.

(** ** The end-to-end scenarios of the specification *)

Example scenario_healthy :
  (handler sample_lib nginx_up PNone PNone []).1
  = Ok {| statusCode := 200;
          body := json_dumps
                    (healthy_body sample_lib "http://nginx.test/" epoch) |}.
Proof. vm_compute. reflexivity. Qed.

Example scenario_timeout_slack_200 :
  (handler sample_lib (nginx_down_slack (status 200 "ok")) PNone PNone []).1
  = Ok {| statusCode := 500;
          body := json_dumps
                    (unhealthy_body sample_lib "http://nginx.test/" true
                       epoch) |}.
Proof. vm_compute. reflexivity. Qed.

Example scenario_timeout_slack_503 :
  (handler sample_lib (nginx_down_slack (status 503 "")) PNone PNone []).1
  = Ok {| statusCode := 500;
          body := json_dumps
                    (unhealthy_body sample_lib "http://nginx.test/" false
                       epoch) |}.
Proof. vm_compute. reflexivity. Qed.

Example scenario_secret_not_found :
  (handler sample_lib nginx_down_no_secret PNone PNone []).1
  = Ok {| statusCode := 500;
          body := json_dumps
                    (error_body sample_lib
                       (LibraryError "ResourceNotFoundException"
                          "Secrets Manager can't find the specified secret.")
                       epoch) |}.
Proof. vm_compute. reflexivity. Qed.

Example slack_204_is_not_sent :
  (send_slack_notification sample_lib (nginx_down_slack (status 204 ""))
     slack_config "http://nginx.test/" []).1 = Ok false.
Proof. vm_compute. reflexivity. Qed.

Example telegram_204_is_not_sent :
  (send_telegram_notification sample_lib
     (nginx_down_telegram (status 204 ""))
     telegram_config "http://nginx.test/" []).1 = Ok false.
Proof. vm_compute. reflexivity. Qed.

Example unknown_channel_posts_nothing :
  (handler sample_lib
     (world env_pager timed_out (status 200 "ok") (stored slack_secret))
     PNone PNone []).1
  = Ok {| statusCode := 500;
          body := json_dumps
                    (unhealthy_body sample_lib "http://nginx.test/" false
                       epoch) |}
  /\ http_requests "POST"
       (handler sample_lib
          (world env_pager timed_out (status 200 "ok") (stored slack_secret))
          PNone PNone []).2 = [].
Proof. split; vm_compute; reflexivity. Qed.

Example empty_url_is_error :
  (handler sample_lib
     (world env_empty_url (status 200 "ok") (status 200 "ok")
        (stored slack_secret))
     PNone PNone [])
  = (Ok {| statusCode := 500;
           body := json_dumps
                     (error_body sample_lib
                        (ValueError
                           "TARGET_URL environment variable is required")
                        epoch) |},
     [EUtcnow epoch;
      EPrint "Starting nginx health check at 2024-01-01T00:00:00";
      EPrint "Error in handler: TARGET_URL environment variable is required";
      EUtcnow epoch]).
Proof. vm_compute. reflexivity. Qed.

Example lower_mixed_case : str_lower "TeleGram" = "telegram".
Proof. reflexivity. Qed.

Example contains_welcome :
  contains "welcome" (str_lower "Welcome to nginx!") = true
  /\ contains "nginx" "maintenance" = false.
Proof. split; reflexivity. Qed.

(** ** Witnesses: each theorem with hypotheses, applied *)


Lemma probe_2xx_healthy_whatever_body_witness :
  (check_nginx_health sample_lib target_204 "http://nginx.test/" 10 []).1
  = Ok true.
Proof.
  eapply (probe_2xx_healthy_whatever_body sample_lib target_204
            "http://nginx.test/" 10 [] _
            {| resp_status := 204;
               resp_data := list_byte_of_string "maintenance" |}).
  - vm_compute. left. reflexivity.
  - cbn. lia.
Defined.

Lemma missing_configuration_is_error_witness :
  environ unconfigured !! "SECRET_NAME" = None
  /\ secret_requests (handler sample_lib unconfigured PNone PNone []).2 = []
  /\ http_requests "GET" (handler sample_lib unconfigured PNone PNone []).2
     = [].
Proof.
  assert (Hcfg : environ unconfigured !! "SECRET_NAME" = None)
    by (vm_compute; reflexivity).
  split; [exact Hcfg|].
  destruct (missing_configuration_is_error sample_lib unconfigured
              PNone PNone [] (or_intror (or_intror (or_introl Hcfg))))
    as (_ & Hhttp & Hsecret & _).
  split; [exact Hsecret | exact (Hhttp "GET")].
Defined.

Lemma undelivered_notification_is_unhealthy_witness :
  exists t,
    (handler sample_lib (nginx_down_slack (status 503 "")) PNone PNone []).1
    = Ok {| statusCode := 500;
            body := json_dumps
                      (unhealthy_body sample_lib "http://nginx.test/"
                         false t) |}.
Proof.
  destruct (undelivered_notification_is_unhealthy sample_lib
              (nginx_down_slack (status 503 "")) PNone PNone []
              slack_config)
    as (url & t & Hurl & Hres).
  - vm_compute. reflexivity.
  - vm_compute. reflexivity.
  - intros req out Hin (resp & -> & Hst). vm_compute in Hin.
    destruct Hin as [Hin|[]]. inversion Hin; subst. discriminate Hst.
  - exists t. vm_compute in Hurl. injection Hurl as <-. exact Hres.
Defined.

Lemma secret_failure_is_error_witness :
  returns "check_nginx_health"
    (handler sample_lib nginx_down_no_secret PNone PNone []).2
  = [PBool false]
  /\ calls "send_notification"
       (handler sample_lib nginx_down_no_secret PNone PNone []).2 = []
  /\ http_requests "POST"
       (handler sample_lib nginx_down_no_secret PNone PNone []).2 = [].
Proof.
  assert (Hprobe : returns "check_nginx_health"
                     (handler sample_lib nginx_down_no_secret
                        PNone PNone []).2 = [PBool false])
    by (vm_compute; reflexivity).
  split; [exact Hprobe|].
  destruct (secret_failure_is_error sample_lib nginx_down_no_secret
              PNone PNone []
              (LibraryError "ResourceNotFoundException"
                 "Secrets Manager can't find the specified secret.")
              Hprobe)
    as (_ & Hcalls & _ & _ & Hpost).
  - vm_compute. reflexivity.
  - split; [exact Hcalls | exact Hpost].
Defined.

Lemma one_notification_on_selected_channel_witness :
  calls "send_telegram_notification"
    (handler sample_lib (nginx_down_telegram (status 200 "ok"))
       PNone PNone []).2
  = [[telegram_config; PStr "http://nginx.test/"]]
  /\ calls "send_slack_notification"
       (handler sample_lib (nginx_down_telegram (status 200 "ok"))
          PNone PNone []).2
     = [].
Proof.
  destruct (one_notification_on_selected_channel sample_lib
              (nginx_down_telegram (status 200 "ok")) PNone PNone []
              telegram_config)
    as (url & nt & Hurl & -> & _ & _ & Htelegram & _).
  - vm_compute. reflexivity.
  - vm_compute. reflexivity.
  - vm_compute in Hurl. injection Hurl as <-.
    apply Htelegram. vm_compute. reflexivity.
Defined.

Lemma healthy_probe_no_secret_no_notification_witness :
  returns "check_nginx_health"
    (handler sample_lib nginx_up PNone PNone []).2 = [PBool true]
  /\ secret_requests (handler sample_lib nginx_up PNone PNone []).2 = []
  /\ calls "send_notification"
       (handler sample_lib nginx_up PNone PNone []).2 = [].
Proof.
  assert (Hprobe : returns "check_nginx_health"
                     (handler sample_lib nginx_up PNone PNone []).2
                   = [PBool true])
    by (vm_compute; reflexivity).
  split; [exact Hprobe|].
  destruct (healthy_probe_no_secret_no_notification sample_lib nginx_up
              PNone PNone [] Hprobe)
    as (_ & Hsecret & _ & Hcalls & _).
  split; [exact Hsecret | exact Hcalls].
Defined.

Lemma missing_credentials_no_http_witness :
  (send_notification sample_lib (nginx_down_slack (status 200 "ok"))
     "Slack" telegram_config "http://nginx.test/" []).1 = Ok false
  /\ http_requests "POST"
       (send_notification sample_lib (nginx_down_slack (status 200 "ok"))
          "Slack" telegram_config "http://nginx.test/" []).2 = [].
Proof.
  destruct (missing_credentials_no_http sample_lib
              (nginx_down_slack (status 200 "ok")) "Slack"
              {[ "telegram_bot_token" := PStr "123:abc";
                 "telegram_chat_id" := PStr "42" ]}
              "http://nginx.test/" [])
    as (Hres & _ & Hhttp).
  - left. split; vm_compute; reflexivity.
  - split; [exact Hres | exact (Hhttp "POST")].
Defined.

Lemma non_object_secret_is_unhealthy_witness :
  returns "get_secret"
    (handler sample_lib (nginx_down_secret "[]") PNone PNone []).2
  = [PList []]
  /\ returns "send_notification"
       (handler sample_lib (nginx_down_secret "[]") PNone PNone []).2
     = [PBool false]
  /\ raises "send_slack_notification"
       (handler sample_lib (nginx_down_secret "[]") PNone PNone []).2
     = [AttributeError "'list' object has no attribute 'get'"].
Proof.
  destruct (non_object_secret_is_unhealthy sample_lib
              (nginx_down_secret "[]") PNone PNone [] "alerts" "[]"
              (PList []))
    as (Hsecret & _ & _ & Hsent & _ & Hslack & _).
  - vm_compute. reflexivity.
  - vm_compute. reflexivity.
  - vm_compute. reflexivity.
  - intros d. discriminate.
  - split; [exact Hsecret|]. split; [exact Hsent|].
    apply Hslack. vm_compute. reflexivity.
Defined.

(** ** Witnesses of the further properties *)

Lemma notifiers_need_a_dict_witness :
  (send_slack_notification sample_lib (nginx_down_secret "[]")
     (PList []) "http://nginx.test/" []).1
  = Raise (AttributeError "'list' object has no attribute 'get'")
  /\ (send_telegram_notification sample_lib (nginx_down_secret "[]")
        (PList []) "http://nginx.test/" []).1
     = Raise (AttributeError "'list' object has no attribute 'get'").
Proof.
  destruct (notifiers_need_a_dict sample_lib (nginx_down_secret "[]")
              (PList []) "http://nginx.test/" [])
    as (Hslack & _ & Htelegram & _).
  - intros d. discriminate.
  - split; [exact Hslack | exact Htelegram].
Defined.



Lemma delivered_notification_is_reported_witness :
  exists t,
    (handler sample_lib (nginx_down_slack (status 200 "ok")) PNone PNone []).1
    = Ok {| statusCode := 500;
            body := json_dumps
                      (unhealthy_body sample_lib "http://nginx.test/"
                         true t) |}.
Proof.
  destruct (delivered_notification_is_reported sample_lib
              (nginx_down_slack (status 200 "ok")) PNone PNone [])
    as (url & t & Hurl & Hres).
  - eexists _, _. split.
    + vm_compute. left. reflexivity.
    + eexists. split; reflexivity.
  - exists t. vm_compute in Hurl. injection Hurl as <-. exact Hres.
Defined.

Lemma configuration_checked_in_order_witness :
  exists t,
    (handler sample_lib
       (world ∅ (status 200 "ok") (status 200 "ok") (stored slack_secret))
       PNone PNone []).1
    = Ok {| statusCode := 500;
            body := json_dumps
              (error_body sample_lib
                 (ValueError "TARGET_URL environment variable is required")
                 t) |}.
Proof.
  apply (configuration_checked_in_order sample_lib
           (world ∅ (status 200 "ok") (status 200 "ok")
              (stored slack_secret))
           PNone PNone [] "TARGET_URL").
  left. split; [reflexivity|]. left. vm_compute. reflexivity.
Defined.
